(** * Openwork desktop renderer

    A shallow embedding of
    - [apps/desktop/src/renderer/components/onboarding/OnboardingWizard.tsx]
      (the onboarding overlay and its feature cards),
    - the [ConversationListItem] component of the sidebar, and
    - the [Session] and [QuotaStatus] shapes of
      [packages/shared/src/types/auth.ts],
    together with the properties the specification states about them.

    The components talk to three collaborators that live outside these
    files: the logging API ([accomplish.logEvent]), the completion callback
    handed in as a prop ([onComplete]) and the router ([navigate],
    [location]).  Every call a component makes to one of them is recorded as
    an [Event]; what the collaborator answers (a normal return or a thrown
    exception) is an input of the model. *)

From Stdlib Require Import String List ZArith Lia Bool.
From stdpp Require Import base strings gmap.
Import ListNotations.
Open Scope string_scope.
Open Scope list_scope.

(** ** JavaScript values the components handle *)

Module Js.

(** The completion of one JavaScript call: it returns a value or it
    throws. *)
Inductive Completion (A : Type) : Type :=
| Normal (value : A)
| Throw (error : string).
Arguments Normal {A} value.
Arguments Throw {A} error.

(** How a promise eventually settles.  The components never await one, so
    the settlement is data they cannot observe. *)
Inductive Settlement : Type :=
| Pending
| Fulfilled
| Rejected (reason : string).

Record Promise : Type := { settlement : Settlement }.

(** One argument of the class-name combinator [cn]: a string, or the
    [false] left by [cond && '...'], or the [undefined] left by a missing
    object property. *)
Inductive ClassValue : Type :=
| ClassStr (classes : string)
| ClassFalse
| ClassUndefined.

#[global] Instance ClassValue_eq_dec : EqDecision ClassValue.
Proof. solve_decision. Defined.

(** [cond && s] for a boolean [cond] and a string [s]. *)
Definition and_class (cond : bool) (classes : string) : ClassValue :=
  if cond then ClassStr classes else ClassFalse.

(** [obj[key]] used as a class value. *)
Definition prop_class (property : option string) : ClassValue :=
  match property with
  | Some classes => ClassStr classes
  | None => ClassUndefined
  end.

End Js.
Export Js.

(** ** Calls to collaborators *)

Record LogPayload : Type := { level : string; message : string }.

Inductive Event : Type :=
| LogEvent (payload : LogPayload)   (* accomplish.logEvent(payload) *)
| OnComplete                        (* onComplete() *)
| Navigate (to : string).           (* navigate(to) *)

#[global] Instance LogPayload_eq_dec : EqDecision LogPayload.
Proof. solve_decision. Defined.

#[global] Instance Event_eq_dec : EqDecision Event.
Proof. solve_decision. Defined.

(** The calls made so far, oldest first. *)
Definition History : Type := list Event.

(** A piece of component code: given the calls made so far it makes further
    calls, in order, and completes. *)
Definition Eff (A : Type) : Type := History -> list Event * Completion A.

Definition ret {A : Type} (a : A) : Eff A :=
  fun _ => ([], Normal a).

(** Sequencing: a thrown exception skips the rest. *)
Definition bind {A B : Type} (m : Eff A) (k : A -> Eff B) : Eff B :=
  fun h =>
    match m h with
    | (e1, Normal a) => let '(e2, r) := k a (h ++ e1) in (e1 ++ e2, r)
    | (e1, Throw err) => (e1, Throw err)
    end.

(** One call to a collaborator; [answer] is what the collaborator does given
    the calls that came before. *)
Definition call {A : Type} (ev : Event) (answer : History -> Completion A) : Eff A :=
  fun h => ([ev], answer h).

Declare Scope eff_scope.
Delimit Scope eff_scope with eff.
Notation "x <- c1 ;; c2" := (bind c1 (fun x => c2))
  (at level 100, c1 at next level, right associativity) : eff_scope.
Notation "c1 ;; c2" := (bind c1 (fun _ => c2))
  (at level 100, right associativity) : eff_scope.

Definition emitted {A : Type} (m : Eff A) (h : History) : list Event := fst (m h).
Definition completion {A : Type} (m : Eff A) (h : History) : Completion A := snd (m h).

(** Number of calls equal to [ev] in a list of calls. *)
Definition calls (ev : Event) (es : list Event) : nat :=
  count_occ Event_eq_dec es ev.

(** ** The slice of React the components rely on *)

Module React.

(** A dependency array; objects are compared by identity, here a
    number. *)
Definition Deps : Type := list nat.

(** [None] is the first render of a mounted instance. *)
Definition depsChanged (prev : option Deps) (next : Deps) : bool :=
  match prev with
  | None => true
  | Some d => negb (bool_decide (d = next))
  end.

(** [useEffect(effect, deps)]: the effect runs after the first render and
    after a render whose dependencies differ from the previous ones.  The
    result is the dependency array remembered for the next render. *)
Definition useEffect (prev : option Deps) (deps : Deps) (effect : Eff unit) : Eff Deps :=
  if depsChanged prev deps
  then (effect ;; ret deps)%eff
  else ret deps.

(** Dispatch of one click to an [onClick] handler.  An exception thrown by
    the handler is reported by React and does not reach the code that
    dispatched the event; the component stays mounted. *)
Definition click (handler : Eff unit) : Eff unit :=
  fun h => (fst (handler h), Normal tt).

Fixpoint clicks (n : nat) (handler : Eff unit) : Eff unit :=
  match n with
  | O => ret tt
  | S k => (click handler ;; clicks k handler)%eff
  end.

End React.

(** ** OnboardingWizard.tsx *)

Module Onboarding.

(** [type FeatureTone = 'blue' | 'teal' | 'purple' | 'green'] *)
Inductive FeatureTone : Type := blue | teal | purple | green.

(** The string a tone is at run time. *)
Definition toneKey (tone : FeatureTone) : string :=
  match tone with
  | blue => "blue"
  | teal => "teal"
  | purple => "purple"
  | green => "green"
  end.

(** The logging API returned by [getAccomplish()].  [api_identity] stands
    for the identity of the object; [logEvent_answer] is what a call to
    [logEvent] does: it returns a promise or throws. *)
Record Accomplish : Type := {
  api_identity : nat;
  logEvent_answer : History -> LogPayload -> Completion Promise
}.

Definition logEvent (accomplish : Accomplish) (payload : LogPayload) : Eff Promise :=
  call (LogEvent payload) (fun h => logEvent_answer accomplish h payload).

(** The logging API keeps to its contract ("returns asynchronously") when
    every call to [logEvent] returns its promise, however that promise
    settles later. *)
Definition logEvent_returns (accomplish : Accomplish) : Prop :=
  forall h payload, exists promise, logEvent_answer accomplish h payload = Normal promise.

(** [interface OnboardingWizardProps { onComplete: () => void }] *)
Record OnboardingWizardProps : Type := {
  onComplete_answer : History -> Completion unit
}.

Definition onComplete (props : OnboardingWizardProps) : Eff unit :=
  call OnComplete (onComplete_answer props).

Definition startedPayload : LogPayload :=
  {| level := "info"; message := "Onboarding wizard started" |}.

Definition completedPayload : LogPayload :=
  {| level := "info"; message := "Onboarding completed" |}.

(** The body of the [useEffect] callback. *)
Definition startedEffect (accomplish : Accomplish) : Eff unit :=
  (logEvent accomplish startedPayload ;; ret tt)%eff.

(** [handleGetStarted]: the promise returned by [logEvent] is dropped. *)
Definition handleGetStarted (accomplish : Accomplish) (props : OnboardingWizardProps)
  : Eff unit :=
  (logEvent accomplish completedPayload ;;
   onComplete props)%eff.

(** *** FeatureCard *)

Record FeatureCardProps : Type := {
  icon : string;
  title : string;
  description : string;
  tone : FeatureTone
}.

(** The object literal [toneStyles]: the map holds its own properties, the
    four entries written in the literal.  [FeatureCard] reads it at tone
    keys only, which are own properties; members inherited from
    [Object.prototype] are not part of the map. *)
Definition toneStyles : gmap string string :=
  {[ "blue" := "bg-blue-500/10 text-blue-600";
     "teal" := "bg-teal-500/10 text-teal-600";
     "purple" := "bg-purple-500/10 text-purple-600";
     "green" := "bg-green-500/10 text-green-600" ]}.

(** What a feature card renders: the arguments of [cn] for the icon box,
    the icon, the heading and the paragraph. *)
Record FeatureCardView : Type := {
  iconBoxClass : list ClassValue;
  iconBoxChild : string;
  heading : string;
  paragraph : string
}.

Definition FeatureCard (props : FeatureCardProps) : FeatureCardView :=
  {| iconBoxClass :=
       [ ClassStr "mb-3 flex h-10 w-10 items-center justify-center rounded-lg";
         prop_class (toneStyles !! toneKey (tone props)) ];
     iconBoxChild := icon props;
     heading := title props;
     paragraph := description props |}.

(** The four cards in the grid of the overlay. *)
Definition featureCards : list FeatureCardProps :=
  [ {| tone := blue; icon := "Code"; title := "Code Generation";
       description := "Generate and modify code with natural language instructions" |};
    {| tone := teal; icon := "Globe"; title := "Browser Automation";
       description := "Automate browser tasks with Dev Browser" |};
    {| tone := purple; icon := "CheckCircle2"; title := "Task Management";
       description := "Track and manage your AI-assisted workflows" |};
    {| tone := green; icon := "Lock"; title := "Secure & Local";
       description := "Your data stays on your machine" |} ].

(** *** OnboardingWizard *)

Record OnboardingView : Type := {
  welcomeTitle : string;
  welcomeSubtitle : string;
  cards : list FeatureCardView;
  buttonLabel : string;
  buttonOnClick : Eff unit
}.

(** One render of the component.  [fiber] is what React kept from the
    previous render of this instance ([None] when it mounts);
    [getAccomplish] is the value [getAccomplish()] returns during this
    render. *)
Definition OnboardingWizard (fiber : option React.Deps) (getAccomplish : Accomplish)
    (props : OnboardingWizardProps) : Eff (React.Deps * OnboardingView) :=
  let accomplish := getAccomplish in
  let view :=
    {| welcomeTitle := "Welcome to Openwork";
       welcomeSubtitle := "Your AI-powered automation assistant";
       cards := map FeatureCard featureCards;
       buttonLabel := "Get Started";
       buttonOnClick := handleGetStarted accomplish props |} in
  (deps <- React.useEffect fiber [api_identity accomplish] (startedEffect accomplish) ;;
   ret (deps, view))%eff.

Definition mount (getAccomplish : Accomplish) (props : OnboardingWizardProps)
  : Eff (React.Deps * OnboardingView) :=
  OnboardingWizard None getAccomplish props.

End Onboarding.

(** ** ConversationListItem *)

Module Conversation.

(** [Task] is imported from [@accomplish/shared]; the component reads
    [id], [prompt] and [status].  [status] is kept a plain string so that
    values the component does not know are inputs too. *)
Record Task : Type := {
  id : string;
  prompt : string;
  status : string
}.

(** The value of [useLocation()]. *)
Record Location : Type := { pathname : string }.

(** The router around the component: the location of the current render
    and what a call to the function returned by [useNavigate()] does. *)
Record Router : Type := {
  location : Location;
  navigate_answer : History -> string -> Completion unit
}.

Definition navigate (router : Router) (to : string) : Eff unit :=
  call (Navigate to) (fun h => navigate_answer router h to).

(** The template literal [`/execution/${task.id}`]. *)
Definition executionPath (task : Task) : string :=
  ("/execution/" ++ id task)%string.

(** The elements that occur as children of the row. *)
Inductive Child : Type :=
| Loader2 (className : string)
| CheckCircle2 (className : string)
| Span (className : string) (text : string).

Definition getStatusIcon (task : Task) : option Child :=
  if String.eqb (status task) "running" then
    Some (Loader2 "h-3 w-3 animate-spin text-primary shrink-0")
  else if String.eqb (status task) "completed" then
    Some (CheckCircle2 "h-3 w-3 text-primary shrink-0")
  else None.

(** The [<button>] the component returns; [className] holds the arguments
    given to [cn], [children] the JSX children, [None] for [null]. *)
Record ButtonElement : Type := {
  onClick : Eff unit;
  className : list ClassValue;
  children : list (option Child)
}.

Definition activeClasses : string := "bg-accent text-accent-foreground".

Definition ConversationListItem (router : Router) (task : Task) : ButtonElement :=
  let navigate := navigate router in
  let location := location router in
  let isActive := String.eqb (pathname location) (executionPath task) in
  let handleClick := navigate (executionPath task) in
  {| onClick := handleClick;
     className :=
       [ ClassStr "w-full text-left px-3 py-2 rounded-md text-sm transition-colors duration-200";
         ClassStr "text-zinc-700 hover:bg-accent hover:text-accent-foreground";
         ClassStr "flex items-center gap-2";
         and_class isActive activeClasses ];
     children :=
       [ getStatusIcon task;
         Some (Span "block truncate flex-1" (prompt task)) ] |}.

(** *** What is visible of a rendered row *)

(** React renders nothing for a [null] child. *)
Definition renderedChildren (row : ButtonElement) : list Child :=
  omap (fun c => c) (children row).

Definition isSpinner (c : Child) : bool :=
  match c with Loader2 _ => true | _ => false end.

Definition isCheck (c : Child) : bool :=
  match c with CheckCircle2 _ => true | _ => false end.

Definition spinners (row : ButtonElement) : nat :=
  length (List.filter isSpinner (renderedChildren row)).

Definition checks (row : ButtonElement) : nat :=
  length (List.filter isCheck (renderedChildren row)).

Definition statusIcons (row : ButtonElement) : nat :=
  length (List.filter (fun c => isSpinner c || isCheck c) (renderedChildren row)).

(** The row is in the active visual state when the active classes are
    among the class values of the button. *)
Definition isActiveRow (row : ButtonElement) : bool :=
  bool_decide (ClassStr activeClasses ∈ className row).

(** A sequence of renders of the same task, one per location. *)
Definition renders (navigate_answer : History -> string -> Completion unit)
    (task : Task) (locations : list Location) : list ButtonElement :=
  (fun l => ConversationListItem
              {| location := l; navigate_answer := navigate_answer |} task)
  <$> locations.

(** Sample inputs. *)
Definition navigate_ok : History -> string -> Completion unit :=
  fun _ _ => Normal tt.

Definition sampleTask (st : string) : Task :=
  {| id := "task-42"; prompt := "Summarise the report"; status := st |}.

Definition routerAt (path : string) : Router :=
  {| location := {| pathname := path |}; navigate_answer := navigate_ok |}.

End Conversation.

(** ** packages/shared/src/types/auth.ts *)

Module Auth.

(** [interface Session]; the two timestamps are strings. *)
Record Session : Type := {
  id : string;
  userId : string;
  deviceId : option string;
  deviceName : option string;
  createdAt : string;
  expiresAt : string
}.

(** [interface QuotaStatus]; the three counters are JavaScript numbers
    that hold whole counts, here integers. *)
Record QuotaStatus : Type := {
  callsUsed : Z;
  callsLimit : Z;
  remaining : Z;
  resetsAt : option string
}.

(** Modelled from the spec: the invariant "remaining = max(0, callsLimit -
    callsUsed)" that the declaration of [QuotaStatus] itself does not
    state. *)
Definition QuotaStatus_invariant (q : QuotaStatus) : Prop :=
  remaining q = Z.max 0 (callsLimit q - callsUsed q).

(** Modelled from the spec: the invariant "expiresAt > createdAt" that the
    declaration of [Session] itself does not state.  Timestamps are
    ISO-8601 strings in one format and zone, ordered as strings. *)
Definition Session_invariant (s : Session) : Prop :=
  String.ltb (createdAt s) (expiresAt s) = true.

(** Modelled from the spec: an ingress validator decides whether a
    deserialised [Session] is let in; it is conforming when it lets in
    only sessions that satisfy the invariant.  No validator is part of
    these files. *)
Definition SessionValidator : Type := Session -> bool.

(** Modelled from the spec: a validator enforces the invariant when every
    session it accepts satisfies it. *)
Definition enforces_invariant (validate : SessionValidator) : Prop :=
  forall s, validate s = true -> Session_invariant s.

(** Modelled from the spec: the validator that checks the invariant and
    nothing else. *)
Definition validateSession : SessionValidator :=
  fun s => String.ltb (createdAt s) (expiresAt s).

(** Modelled from the spec: a producer of quota values is conforming when
    it fills [remaining] from the two other counters.  No producer is
    part of these files. *)
Definition conformingQuota (used limit : Z) (resets : option string) : QuotaStatus :=
  {| callsUsed := used; callsLimit := limit;
     remaining := Z.max 0 (limit - used); resetsAt := resets |}.

(** Sample values; each is a well-typed value of its interface. *)
Definition sessionWithEqualTimestamps : Session :=
  {| id := "s1"; userId := "u1"; deviceId := None; deviceName := None;
     createdAt := "2024-01-01T00:00:00Z"; expiresAt := "2024-01-01T00:00:00Z" |}.

Definition inconsistentQuota : QuotaStatus :=
  {| callsUsed := 7; callsLimit := 10; remaining := 5; resetsAt := None |}.

Definition negativeQuota : QuotaStatus :=
  {| callsUsed := 12; callsLimit := 10; remaining := -2; resetsAt := None |}.

End Auth.

(** ** Sample collaborators *)

Module Samples.
Import Onboarding.

(** A logging API whose promise resolves. *)
Definition resolvingApi : Accomplish :=
  {| api_identity := 1;
     logEvent_answer := fun _ _ => Normal {| settlement := Fulfilled |} |}.

(** A logging API whose promise is rejected later on. *)
Definition rejectingApi : Accomplish :=
  {| api_identity := 2;
     logEvent_answer := fun _ _ =>
       Normal {| settlement := Rejected "log transport unavailable" |} |}.

(** A logging API whose [logEvent] throws before it returns a promise. *)
Definition throwingApi : Accomplish :=
  {| api_identity := 3;
     logEvent_answer := fun _ _ => Throw "logEvent is not available" |}.

(** A logging API that accepts the started log and whose [logEvent] throws
    for the "Onboarding completed" payload: the overlay mounts with it. *)
Definition completedThrowingApi : Accomplish :=
  {| api_identity := 4;
     logEvent_answer := fun _ payload =>
       if bool_decide (payload = completedPayload)
       then Throw "completed log refused"
       else Normal {| settlement := Fulfilled |} |}.

Definition plainProps : OnboardingWizardProps :=
  {| onComplete_answer := fun _ => Normal tt |}.

End Samples.

(** ** A mounted overlay and a list of rows *)

Module Scenario.
Import Onboarding Conversation.

(** [k] further renders of a mounted overlay with the same API object and
    props; each render gets what React kept from the one before. *)
Fixpoint rerender (k : nat) (accomplish : Accomplish) (props : OnboardingWizardProps)
    (current : React.Deps * OnboardingView) : Eff (React.Deps * OnboardingView) :=
  match k with
  | O => ret current
  | S k' =>
      (next <- OnboardingWizard (Some (fst current)) accomplish props ;;
       rerender k' accomplish props next)%eff
  end.

(** What the tests of the completion flow do: render the overlay, then click
    the button of the rendered view [n] times ([fireEvent.click(button)]);
    here with [k] re-renders in between. *)
Definition renderThenClick (accomplish : Accomplish) (props : OnboardingWizardProps)
    (k n : nat) : Eff unit :=
  (mounted <- mount accomplish props ;;
   current <- rerender k accomplish props mounted ;;
   React.clicks n (buttonOnClick (snd current)))%eff.

(** The rows of several tasks rendered at one location, and how many of
    them are in the active state. *)
Definition rows (router : Router) (tasks : list Task) : list ButtonElement :=
  ConversationListItem router <$> tasks.

Definition activeRows (router : Router) (tasks : list Task) : nat :=
  length (List.filter isActiveRow (rows router tasks)).

(** The router of a render at [path]. *)
Definition routerWith (answer : History -> string -> Completion unit) (path : string)
  : Router :=
  {| location := {| pathname := path |}; navigate_answer := answer |}.

Definition sampleTasks : list Task :=
  [ {| id := "a1"; prompt := "Book a table"; status := "running" |};
    {| id := "b2"; prompt := "Rename the files"; status := "completed" |};
    {| id := "c3"; prompt := "Draft the reply"; status := "failed" |} ].

End Scenario.

(** * Properties *)

Import Onboarding Conversation.

(** ** Sequencing and clicks *)

Section EffFacts.
Context {A B : Type}.

Lemma emitted_ret (a : A) (h : History) : emitted (ret a) h = [].
Proof. reflexivity. Qed.

Lemma emitted_call (ev : Event) (answer : History -> Completion A) (h : History) :
  emitted (call ev answer) h = [ev].
Proof. reflexivity. Qed.

Lemma completion_call (ev : Event) (answer : History -> Completion A) (h : History) :
  completion (call ev answer) h = answer h.
Proof. reflexivity. Qed.

Lemma emitted_bind (m : Eff A) (k : A -> Eff B) (h : History) :
  emitted (bind m k) h =
    match completion m h with
    | Normal a => emitted m h ++ emitted (k a) (h ++ emitted m h)
    | Throw _ => emitted m h
    end.
Proof.
  unfold emitted, completion, bind.
  destruct (m h) as [e1 [a | err]]; simpl; [ | reflexivity ].
  destruct (k a (h ++ e1)); reflexivity.
Qed.

Lemma completion_bind (m : Eff A) (k : A -> Eff B) (h : History) :
  completion (bind m k) h =
    match completion m h with
    | Normal a => completion (k a) (h ++ emitted m h)
    | Throw err => Throw err
    end.
Proof.
  unfold emitted, completion, bind.
  destruct (m h) as [e1 [a | err]]; simpl; [ | reflexivity ].
  destruct (k a (h ++ e1)); reflexivity.
Qed.

End EffFacts.

Lemma emitted_click (handler : Eff unit) (h : History) :
  emitted (React.click handler) h = emitted handler h.
Proof. reflexivity. Qed.

Lemma emitted_clicks_S (n : nat) (handler : Eff unit) (h : History) :
  emitted (React.clicks (S n) handler) h =
    emitted handler h ++ emitted (React.clicks n handler) (h ++ emitted handler h).
Proof. simpl. rewrite emitted_bind. reflexivity. Qed.

(** Clicking [n] times a handler that makes the same calls whatever came
    before makes those calls [n] times over. *)
Lemma emitted_clicks_uniform (handler : Eff unit) (es : list Event) :
  (forall h, emitted handler h = es) ->
  forall n h, emitted (React.clicks n handler) h = concat (repeat es n).
Proof.
  intros Hes n. induction n as [ | n IH ]; intros h.
  - reflexivity.
  - rewrite emitted_clicks_S, Hes, IH. reflexivity.
Qed.

Lemma calls_app (ev : Event) (es1 es2 : list Event) :
  calls ev (es1 ++ es2) = calls ev es1 + calls ev es2.
Proof. unfold calls. apply count_occ_app. Qed.

Lemma calls_concat_repeat (ev : Event) (es : list Event) (n : nat) :
  calls ev (concat (repeat es n)) = n * calls ev es.
Proof.
  induction n as [ | n IH ]; simpl; [ reflexivity | ].
  rewrite calls_app, IH. reflexivity.
Qed.

(** ** The onboarding overlay *)

Lemma handleGetStarted_emitted (accomplish : Accomplish) (props : OnboardingWizardProps)
    (h : History) :
  emitted (handleGetStarted accomplish props) h =
    match logEvent_answer accomplish h completedPayload with
    | Normal _ => [LogEvent completedPayload; OnComplete]
    | Throw _ => [LogEvent completedPayload]
    end.
Proof.
  unfold handleGetStarted. rewrite emitted_bind.
  unfold logEvent at 1. rewrite completion_call.
  destruct (logEvent_answer accomplish h completedPayload); reflexivity.
Qed.

(** The button of every finished render is wired to [handleGetStarted]. *)
Lemma OnboardingWizard_button (fiber : option React.Deps) (accomplish : Accomplish)
    (props : OnboardingWizardProps) (h : History) (deps : React.Deps) (view : OnboardingView) :
  completion (OnboardingWizard fiber accomplish props) h = Normal (deps, view) ->
  buttonLabel view = "Get Started" /\
  buttonOnClick view = handleGetStarted accomplish props.
Proof.
  unfold OnboardingWizard. rewrite completion_bind.
  destruct (completion _ h) as [ d | err ]; [ | discriminate ].
  unfold completion, ret. simpl. intros [= <- <-]. split; reflexivity.
Qed.


(** One click makes the log call and then, unless that call threw, the
    callback. *)
Lemma handleGetStarted_block (accomplish : Accomplish) (props : OnboardingWizardProps)
    (h : History) :
  emitted (handleGetStarted accomplish props) h = [LogEvent completedPayload]
  \/ emitted (handleGetStarted accomplish props) h = [LogEvent completedPayload; OnComplete].
Proof.
  rewrite handleGetStarted_emitted.
  destruct (logEvent_answer accomplish h completedPayload); [ right | left ]; reflexivity.
Qed.

Lemma clicks_log_count (accomplish : Accomplish) (props : OnboardingWizardProps)
    (n : nat) (h : History) :
  calls (LogEvent completedPayload)
    (emitted (React.clicks n (handleGetStarted accomplish props)) h) = n.
Proof.
  revert h. induction n as [ | n IH ]; intros h; [ reflexivity | ].
  rewrite emitted_clicks_S, calls_app, IH.
  destruct (handleGetStarted_block accomplish props h) as [-> | ->]; reflexivity.
Qed.

(** C4 (as stated, refuted).  The overlay mounts with a logging API whose
    [logEvent] throws for the "Onboarding completed" payload; three clicks
    of its button then make three log calls and not one call of the
    completion callback, so the callback count is not the click count. *)
Lemma three_clicks_without_callback :
  emitted (Scenario.renderThenClick Samples.completedThrowingApi Samples.plainProps 0 3) []
    = [ LogEvent startedPayload;
        LogEvent completedPayload; LogEvent completedPayload; LogEvent completedPayload ]
  /\ calls (LogEvent completedPayload)
       (emitted (React.clicks 3
          (handleGetStarted Samples.completedThrowingApi Samples.plainProps))
          [LogEvent startedPayload]) = 3
  /\ calls OnComplete
       (emitted (React.clicks 3
          (handleGetStarted Samples.completedThrowingApi Samples.plainProps))
          [LogEvent startedPayload]) = 0.
Proof. repeat split; vm_compute; reflexivity. Qed.

(** C4 (amended).  With a logging API whose calls return, [N] clicks of "Get
    Started" make exactly [N] calls of [logEvent] with level "info" and
    message "Onboarding completed" and exactly [N] calls of the completion
    callback, one after each log call and nothing else, whatever happened
    before and whatever the callback does: nothing in the component
    remembers an earlier click.  (The count of log calls needs no
    assumption, see [clicks_log_count].) *)
Theorem N_clicks_N_logs_N_callbacks (accomplish : Accomplish)
    (props : OnboardingWizardProps) (N : nat) (h : History) :
  logEvent_returns accomplish ->
  let es := emitted (React.clicks N (handleGetStarted accomplish props)) h in
  calls (LogEvent {| level := "info"; message := "Onboarding completed" |}) es = N
  /\ calls OnComplete es = N
  /\ es = concat (repeat [LogEvent completedPayload; OnComplete] N).
Proof.
  intros Hret es.
  assert (Hes : es = concat (repeat [LogEvent completedPayload; OnComplete] N)).
  { subst es. apply emitted_clicks_uniform. intros h0.
    rewrite handleGetStarted_emitted.
    destruct (Hret h0 completedPayload) as [promise ->]. reflexivity. }
  split; [ apply clicks_log_count | split; [ | exact Hes ] ].
  rewrite Hes, calls_concat_repeat.
  vm_compute calls. lia.
Qed.

Lemma N_clicks_N_logs_N_callbacks_witness :
  let es := emitted (React.clicks 3
              (handleGetStarted Samples.resolvingApi Samples.plainProps)) [] in
  calls (LogEvent {| level := "info"; message := "Onboarding completed" |}) es = 3
  /\ calls OnComplete es = 3
  /\ es = concat (repeat [LogEvent completedPayload; OnComplete] 3).
Proof.
  apply (N_clicks_N_logs_N_callbacks Samples.resolvingApi Samples.plainProps 3 []).
  intros h payload. exists {| settlement := Fulfilled |}. reflexivity.
Defined.

(** C8 (as stated, refuted).  When the call to [logEvent] throws, the click
    handler stops there: the completion callback is not called. *)
Lemma throwing_log_blocks_completion :
  emitted (React.click (handleGetStarted Samples.throwingApi Samples.plainProps)) []
    = [LogEvent completedPayload]
  /\ calls OnComplete
       (emitted (React.click (handleGetStarted Samples.throwingApi Samples.plainProps)) [])
     = 0.
Proof. split; reflexivity. Qed.

(** C8 (amended).  When the call to [logEvent] returns its promise, the
    handler never looks at it: however the promise settles (fulfilled,
    rejected or never), a click calls the completion callback exactly once,
    right after the log call, and the handler completes as the callback
    does. *)
Theorem async_log_failure_does_not_block_completion (accomplish : Accomplish)
    (props : OnboardingWizardProps) (h : History) (promise : Promise) :
  logEvent_answer accomplish h completedPayload = Normal promise ->
  emitted (React.click (handleGetStarted accomplish props)) h
    = [LogEvent completedPayload; OnComplete]
  /\ completion (handleGetStarted accomplish props) h
    = onComplete_answer props (h ++ [LogEvent completedPayload]).
Proof.
  intros Hlog. split.
  - rewrite emitted_click, handleGetStarted_emitted, Hlog. reflexivity.
  - unfold handleGetStarted. rewrite completion_bind.
    unfold logEvent at 1. rewrite completion_call, Hlog.
    reflexivity.
Qed.

Lemma async_log_failure_does_not_block_completion_witness :
  emitted (React.click (handleGetStarted Samples.rejectingApi Samples.plainProps)) []
    = [LogEvent completedPayload; OnComplete]
  /\ completion (handleGetStarted Samples.rejectingApi Samples.plainProps) []
    = onComplete_answer Samples.plainProps ([] ++ [LogEvent completedPayload]).
Proof.
  apply (async_log_failure_does_not_block_completion
           Samples.rejectingApi Samples.plainProps []
           {| settlement := Rejected "log transport unavailable" |}).
  reflexivity.
Defined.

(** C9.  In the calls made by any number of clicks of "Get Started", with
    any logging API and any callback, every call of the completion callback
    comes directly after a call of [logEvent] with the "Onboarding
    completed" payload. *)
Theorem completed_log_precedes_callback (accomplish : Accomplish)
    (props : OnboardingWizardProps) (n : nat) (h : History)
    (before after : list Event) :
  emitted (React.clicks n (handleGetStarted accomplish props)) h
    = before ++ OnComplete :: after ->
  exists earlier,
    before = earlier ++ [LogEvent {| level := "info"; message := "Onboarding completed" |}].
Proof.
  revert h before.
  induction n as [ | n IH ]; intros h before Hsplit.
  - destruct before; discriminate Hsplit.
  - rewrite emitted_clicks_S in Hsplit.
    destruct (handleGetStarted_block accomplish props h) as [Hblock | Hblock];
      rewrite Hblock in Hsplit.
    + destruct before as [ | e before ]; [ discriminate Hsplit | ].
      injection Hsplit as <- Hrest.
      destruct (IH _ _ Hrest) as [earlier ->].
      exists (LogEvent completedPayload :: earlier). reflexivity.
    + destruct before as [ | e before ]; [ discriminate Hsplit | ].
      injection Hsplit as <- Hrest.
      destruct before as [ | e' before ].
      * exists []. reflexivity.
      * injection Hrest as <- Hrest.
        destruct (IH _ _ Hrest) as [earlier ->].
        exists (LogEvent completedPayload :: OnComplete :: earlier). reflexivity.
Qed.

Lemma completed_log_precedes_callback_witness :
  exists earlier,
    [LogEvent completedPayload; OnComplete; LogEvent completedPayload]
    = earlier ++ [LogEvent {| level := "info"; message := "Onboarding completed" |}].
Proof.
  apply (completed_log_precedes_callback Samples.resolvingApi Samples.plainProps 2 []
           [LogEvent completedPayload; OnComplete; LogEvent completedPayload] []).
  reflexivity.
Defined.

(** C10.  For every tone of [FeatureTone] the lookup [toneStyles[tone]] is
    defined, so the icon box of every feature card gets two class strings
    and never [undefined]; this holds in particular for the four cards of
    the overlay. *)
Theorem toneStyles_defined_for_every_tone (props : FeatureCardProps) :
  exists style,
    toneStyles !! toneKey (tone props) = Some style
    /\ iconBoxClass (FeatureCard props)
       = [ ClassStr "mb-3 flex h-10 w-10 items-center justify-center rounded-lg";
           ClassStr style ]
    /\ Forall (fun card => ClassUndefined ∉ iconBoxClass card) (map FeatureCard featureCards).
Proof.
  assert (Hcards : Forall (fun card => ClassUndefined ∉ iconBoxClass card)
                     (map FeatureCard featureCards)).
  { repeat constructor; vm_compute; intros Hin;
      repeat (apply elem_of_cons in Hin as [Hin | Hin]; [ discriminate Hin | ]);
      inversion Hin. }
  destruct props as [i t d []]; eexists; (split; [ | split; [ | exact Hcards ] ]);
    unfold FeatureCard; simpl; vm_compute; reflexivity.
Qed.


(** ** The conversation list item *)

Lemma concat_repeat_singleton {A : Type} (x : A) (n : nat) :
  concat (repeat [x] n) = repeat x n.
Proof. induction n as [ | n IH ]; simpl; [ | rewrite IH ]; reflexivity. Qed.

Lemma calls_repeat (ev : Event) (n : nat) : calls ev (repeat ev n) = n.
Proof.
  unfold calls. induction n as [ | n IH ]; simpl; [ reflexivity | ].
  destruct (Event_eq_dec ev ev) as [ _ | Hne ]; [ rewrite IH; reflexivity | ].
  contradiction.
Qed.

(** C1.  The status icon of a row depends on the status of the task alone
    and is defined for every status string: "running" gives one spinning
    [Loader2] and no check, "completed" gives one [CheckCircle2] and no
    spinner, and any other string gives [null], which renders no icon. *)
Theorem status_icon_total_mapping (router : Router) (task : Task) :
  let row := ConversationListItem router task in
  (status task = "running" ->
     getStatusIcon task = Some (Loader2 "h-3 w-3 animate-spin text-primary shrink-0")
     /\ spinners row = 1 /\ checks row = 0)
  /\ (status task = "completed" ->
     getStatusIcon task = Some (CheckCircle2 "h-3 w-3 text-primary shrink-0")
     /\ checks row = 1 /\ spinners row = 0)
  /\ (status task <> "running" -> status task <> "completed" ->
     getStatusIcon task = None /\ statusIcons row = 0).
Proof.
  intros row. subst row.
  unfold spinners, checks, statusIcons, renderedChildren, ConversationListItem,
    getStatusIcon; simpl.
  split; [ | split ].
  - intros ->. repeat split.
  - intros ->. repeat split.
  - intros Hrun Hdone.
    apply String.eqb_neq in Hrun, Hdone. rewrite Hrun, Hdone.
    split; reflexivity.
Qed.

Lemma status_icon_total_mapping_witness :
  (spinners (ConversationListItem (routerAt "/") (sampleTask "running")) = 1
   /\ checks (ConversationListItem (routerAt "/") (sampleTask "running")) = 0)
  /\ (checks (ConversationListItem (routerAt "/") (sampleTask "completed")) = 1
   /\ spinners (ConversationListItem (routerAt "/") (sampleTask "completed")) = 0)
  /\ statusIcons (ConversationListItem (routerAt "/") (sampleTask "waiting_permission")) = 0.
Proof.
  split; [ | split ].
  - apply (status_icon_total_mapping (routerAt "/") (sampleTask "running")).
    reflexivity.
  - apply (status_icon_total_mapping (routerAt "/") (sampleTask "completed")).
    reflexivity.
  - apply (status_icon_total_mapping (routerAt "/") (sampleTask "waiting_permission"));
      discriminate.
Defined.

(** C2.  A rendered row carries the active classes exactly when the
    pathname of the location of that render equals "/execution/" followed
    by the id of the task.  In a sequence of renders of the same task every
    row follows the location of its own render: nothing is kept from an
    earlier render. *)
Theorem active_iff_location_is_execution_path (task : Task) :
  (forall router,
     isActiveRow (ConversationListItem router task) = true
     <-> pathname (location router) = ("/execution/" ++ id task)%string)
  /\ (forall answer locations i l,
     locations !! i = Some l ->
     exists row,
       renders answer task locations !! i = Some row
       /\ (isActiveRow row = true
           <-> pathname l = ("/execution/" ++ id task)%string)).
Proof.
  assert (Hone : forall router,
     isActiveRow (ConversationListItem router task) = true
     <-> pathname (location router) = ("/execution/" ++ id task)%string).
  { intros router. unfold isActiveRow, ConversationListItem. simpl.
    rewrite bool_decide_eq_true. fold (executionPath task).
    split.
    - intros Hin.
      repeat (apply elem_of_cons in Hin as [Hin | Hin]; [ try discriminate Hin | ]).
      + apply String.eqb_eq.
        destruct (String.eqb _ _); [ reflexivity | discriminate Hin ].
      + inversion Hin.
    - intros Heq. apply String.eqb_eq in Heq. rewrite Heq. simpl.
      rewrite !elem_of_cons. do 3 right. left. reflexivity. }
  split; [ exact Hone | ].
  intros answer locations i l Hl.
  exists (ConversationListItem {| location := l; navigate_answer := answer |} task).
  split.
  - unfold renders. rewrite list_lookup_fmap, Hl. reflexivity.
  - apply Hone.
Qed.

Lemma active_iff_location_is_execution_path_witness :
  (isActiveRow (ConversationListItem (routerAt "/execution/task-42") (sampleTask "running"))
     = true
   <-> "/execution/task-42" = "/execution/task-42")
  /\ exists row,
       renders navigate_ok (sampleTask "running")
         [ {| pathname := "/execution/task-42" |}; {| pathname := "/settings" |} ] !! 1
       = Some row
       /\ (isActiveRow row = true <-> "/settings" = "/execution/task-42").
Proof.
  split.
  - exact (proj1 (active_iff_location_is_execution_path (sampleTask "running"))
             (routerAt "/execution/task-42")).
  - apply (proj2 (active_iff_location_is_execution_path (sampleTask "running"))
             navigate_ok
             [ {| pathname := "/execution/task-42" |}; {| pathname := "/settings" |} ]
             1 {| pathname := "/settings" |}).
    reflexivity.
Defined.

(** C3.  [n] clicks on a row make exactly [n] calls, each of them
    [navigate] with "/execution/" followed by the id of the task, whatever
    the current location is (the active row included), whatever the router
    answers and whatever happened before. *)
Theorem click_navigates_to_execution_path (router : Router) (task : Task)
    (n : nat) (h : History) :
  emitted (React.clicks n (onClick (ConversationListItem router task))) h
    = repeat (Navigate ("/execution/" ++ id task)%string) n
  /\ calls (Navigate ("/execution/" ++ id task)%string)
       (emitted (React.clicks n (onClick (ConversationListItem router task))) h) = n
  /\ emitted (React.click (onClick (ConversationListItem router task))) h
    = [Navigate ("/execution/" ++ id task)%string].
Proof.
  assert (Hall : emitted (React.clicks n (onClick (ConversationListItem router task))) h
                 = repeat (Navigate ("/execution/" ++ id task)%string) n).
  { rewrite <- concat_repeat_singleton.
    apply emitted_clicks_uniform. intros h0. reflexivity. }
  split; [ exact Hall | split; [ | reflexivity ] ].
  rewrite Hall. apply calls_repeat.
Qed.


(** ** The auth shapes *)

Import Auth.

Lemma ltb_irreflexive (s : string) : String.ltb s s = false.
Proof.
  unfold String.ltb.
  pose proof (String.compare_antisym s s) as Hanti.
  destruct (String.compare s s); simpl in Hanti; congruence.
Qed.

(** C5 (as stated, refuted).  [QuotaStatus] is a record of three independent
    numbers: the value with 7 calls used, a limit of 10 and [remaining] 5 is
    a [QuotaStatus] and breaks the equation, and so does the value with 12
    used, a limit of 10 and the negative [remaining] -2. *)
Lemma quota_invariant_not_enforced_by_type :
  remaining inconsistentQuota
    <> Z.max 0 (callsLimit inconsistentQuota - callsUsed inconsistentQuota)
  /\ remaining negativeQuota
    <> Z.max 0 (callsLimit negativeQuota - callsUsed negativeQuota)
  /\ (remaining negativeQuota < 0)%Z.
Proof. repeat split; vm_compute; congruence. Qed.

(** C5 (amended).  Every [QuotaStatus] that satisfies the invariant
    "remaining = max(0, callsLimit - callsUsed)" has a [remaining] that is
    never negative, equal to 3 for 7 calls used of 10 and equal to 0 for 12
    calls used of 10; the value a conforming producer builds from the two
    counters satisfies the invariant. *)
Theorem quota_invariant_fixes_remaining (q : QuotaStatus) :
  QuotaStatus_invariant q ->
  (0 <= remaining q)%Z
  /\ (callsUsed q = 7%Z -> callsLimit q = 10%Z -> remaining q = 3%Z)
  /\ (callsUsed q = 12%Z -> callsLimit q = 10%Z -> remaining q = 0%Z)
  /\ (forall used limit resets, QuotaStatus_invariant (conformingQuota used limit resets)).
Proof.
  unfold QuotaStatus_invariant. intros Hinv.
  repeat split.
  - lia.
  - intros Hused Hlimit. rewrite Hinv, Hused, Hlimit. reflexivity.
  - intros Hused Hlimit. rewrite Hinv, Hused, Hlimit. reflexivity.
Qed.

Lemma quota_invariant_fixes_remaining_witness :
  remaining (conformingQuota 7 10 None) = 3%Z
  /\ remaining (conformingQuota 12 10 None) = 0%Z.
Proof.
  split.
  - apply (quota_invariant_fixes_remaining (conformingQuota 7 10 None));
      reflexivity.
  - apply (quota_invariant_fixes_remaining (conformingQuota 12 10 None));
      reflexivity.
Defined.

(** C6 (as stated, refuted).  [Session] is a record of strings: the value
    whose [createdAt] and [expiresAt] are both "2024-01-01T00:00:00Z" is a
    [Session] and does not satisfy "expiresAt > createdAt". *)
Lemma session_invariant_not_enforced_by_type :
  createdAt sessionWithEqualTimestamps = "2024-01-01T00:00:00Z"
  /\ expiresAt sessionWithEqualTimestamps = "2024-01-01T00:00:00Z"
  /\ ~ Session_invariant sessionWithEqualTimestamps.
Proof. repeat split. vm_compute. congruence. Qed.

(** C6 (amended).  A [Session] whose [createdAt] and [expiresAt] are equal
    does not satisfy "expiresAt > createdAt", and every ingress validator
    that lets in only sessions satisfying the invariant rejects it. *)
Theorem equal_timestamps_rejected (validate : SessionValidator) (s : Session) :
  enforces_invariant validate ->
  createdAt s = expiresAt s ->
  ~ Session_invariant s /\ validate s = false.
Proof.
  intros Henf Heq.
  assert (Hnot : ~ Session_invariant s).
  { unfold Session_invariant. rewrite Heq, ltb_irreflexive. discriminate. }
  split; [ exact Hnot | ].
  destruct (validate s) eqn:Hv; [ | reflexivity ].
  exfalso. apply Hnot, Henf, Hv.
Qed.

Lemma equal_timestamps_rejected_witness :
  ~ Session_invariant sessionWithEqualTimestamps
  /\ validateSession sessionWithEqualTimestamps = false.
Proof.
  apply (equal_timestamps_rejected validateSession sessionWithEqualTimestamps).
  - intros s Hs. exact Hs.
  - reflexivity.
Defined.


(** * Further properties of the components *)

Import Scenario.

(** ** Renders and clicks of the overlay *)

(** What one render emits: the started log when the effect runs, nothing
    otherwise. *)
Lemma OnboardingWizard_emitted (fiber : option React.Deps) (accomplish : Accomplish)
    (props : OnboardingWizardProps) (h : History) :
  emitted (OnboardingWizard fiber accomplish props) h =
    if React.depsChanged fiber [api_identity accomplish]
    then [LogEvent startedPayload] else [].
Proof.
  unfold OnboardingWizard. rewrite emitted_bind.
  unfold React.useEffect.
  destruct (React.depsChanged fiber [api_identity accomplish]); [ | reflexivity ].
  rewrite completion_bind, emitted_bind.
  unfold startedEffect. rewrite completion_bind, emitted_bind.
  unfold logEvent. rewrite completion_call, emitted_call.
  destruct (logEvent_answer accomplish h startedPayload); reflexivity.
Qed.

(** With a logging API whose calls return, every render finishes, remembers
    the API object as its dependency and wires the button to
    [handleGetStarted]. *)
Lemma OnboardingWizard_finishes (fiber : option React.Deps) (accomplish : Accomplish)
    (props : OnboardingWizardProps) (h : History) :
  logEvent_returns accomplish ->
  exists view,
    completion (OnboardingWizard fiber accomplish props) h
      = Normal ([api_identity accomplish], view)
    /\ buttonOnClick view = handleGetStarted accomplish props.
Proof.
  intros Hret. unfold OnboardingWizard. rewrite completion_bind.
  unfold React.useEffect.
  destruct (React.depsChanged fiber [api_identity accomplish]).
  - rewrite completion_bind. unfold startedEffect. rewrite completion_bind.
    unfold logEvent. rewrite completion_call.
    destruct (Hret h startedPayload) as [promise ->].
    eexists. split; reflexivity.
  - eexists. split; reflexivity.
Qed.

Lemma rerender_quiet (accomplish : Accomplish) (props : OnboardingWizardProps)
    (k : nat) (current : React.Deps * OnboardingView) (h : History) :
  logEvent_returns accomplish ->
  fst current = [api_identity accomplish] ->
  buttonOnClick (snd current) = handleGetStarted accomplish props ->
  emitted (rerender k accomplish props current) h = []
  /\ exists view,
       completion (rerender k accomplish props current) h
         = Normal ([api_identity accomplish], view)
       /\ buttonOnClick view = handleGetStarted accomplish props.
Proof.
  intros Hret. revert current h.
  induction k as [ | k IH ]; intros [deps view] h Hdeps Hbutton; simpl in Hdeps, Hbutton.
  - split; [ reflexivity | ]. exists view. subst deps. split; [ reflexivity | exact Hbutton ].
  - simpl rerender. rewrite emitted_bind, completion_bind.
    destruct (OnboardingWizard_finishes (Some deps) accomplish props h Hret)
      as (next & Hnext & Hwired).
    rewrite Hnext, OnboardingWizard_emitted. subst deps.
    unfold React.depsChanged. rewrite bool_decide_eq_true_2 by reflexivity.
    simpl negb. cbv iota. rewrite app_nil_r.
    apply (IH (_, next)); [ reflexivity | exact Hwired ].
Qed.

(** X1.  A render of a mounted overlay runs the effect again exactly when
    the API object differs from the one remembered from the previous
    render: it then logs "Onboarding wizard started" once more, and logs
    nothing when the object is the same. *)
Theorem started_effect_follows_api_identity (previous : React.Deps)
    (accomplish : Accomplish) (props : OnboardingWizardProps) (h : History) :
  emitted (OnboardingWizard (Some previous) accomplish props) h =
    if bool_decide (previous = [api_identity accomplish])
    then []
    else [LogEvent {| level := "info"; message := "Onboarding wizard started" |}].
Proof.
  rewrite OnboardingWizard_emitted. unfold React.depsChanged.
  destruct (bool_decide (previous = [api_identity accomplish])); reflexivity.
Qed.

(** X2.  Rendering the overlay, re-rendering it any number of times with
    the same API object and then clicking "Get Started" [n] times makes,
    with a logging API whose calls return, exactly these calls in this
    order: one started log, then [n] times a completed log followed by the
    completion callback. *)
Theorem render_then_click_trace (accomplish : Accomplish)
    (props : OnboardingWizardProps) (k n : nat) (h : History) :
  logEvent_returns accomplish ->
  emitted (renderThenClick accomplish props k n) h
    = LogEvent startedPayload
      :: concat (repeat [LogEvent completedPayload; OnComplete] n)
  /\ calls (LogEvent startedPayload) (emitted (renderThenClick accomplish props k n) h) = 1
  /\ calls OnComplete (emitted (renderThenClick accomplish props k n) h) = n.
Proof.
  intros Hret.
  assert (Hes : emitted (renderThenClick accomplish props k n) h
                = LogEvent startedPayload
                  :: concat (repeat [LogEvent completedPayload; OnComplete] n)).
  { unfold renderThenClick, mount. rewrite emitted_bind.
    destruct (OnboardingWizard_finishes None accomplish props h Hret)
      as (view & Hmount & Hwired).
    rewrite Hmount, OnboardingWizard_emitted. simpl React.depsChanged. cbv iota.
    rewrite emitted_bind.
    destruct (rerender_quiet accomplish props k (_, view)
                (h ++ [LogEvent startedPayload]) Hret eq_refl Hwired)
      as (Hquiet & view' & Hdone & Hwired').
    unfold React.Deps in *. rewrite Hdone, Hquiet. simpl snd. rewrite Hwired'. simpl.
    f_equal. apply emitted_clicks_uniform. intros h0.
    rewrite handleGetStarted_emitted.
    destruct (Hret h0 completedPayload) as [promise ->]. reflexivity. }
  split; [ exact Hes | ].
  rewrite Hes. change (LogEvent startedPayload :: ?l) with ([LogEvent startedPayload] ++ l).
  rewrite !calls_app, !calls_concat_repeat.
  split; vm_compute calls; lia.
Qed.

Lemma render_then_click_trace_witness :
  emitted (renderThenClick Samples.resolvingApi Samples.plainProps 2 3) []
    = LogEvent startedPayload
      :: concat (repeat [LogEvent completedPayload; OnComplete] 3)
  /\ calls (LogEvent startedPayload)
       (emitted (renderThenClick Samples.resolvingApi Samples.plainProps 2 3) []) = 1
  /\ calls OnComplete
       (emitted (renderThenClick Samples.resolvingApi Samples.plainProps 2 3) []) = 3.
Proof.
  apply (render_then_click_trace Samples.resolvingApi Samples.plainProps 2 3 []).
  intros h payload. exists {| settlement := Fulfilled |}. reflexivity.
Defined.

(** X3.  When the call to [logEvent] throws, [handleGetStarted] makes that
    one call, throws the same error and never reaches the completion
    callback. *)
Theorem log_exception_leaves_handler (accomplish : Accomplish)
    (props : OnboardingWizardProps) (h : History) (err : string) :
  logEvent_answer accomplish h completedPayload = Throw err ->
  completion (handleGetStarted accomplish props) h = Throw err
  /\ emitted (handleGetStarted accomplish props) h = [LogEvent completedPayload]
  /\ OnComplete ∉ emitted (handleGetStarted accomplish props) h.
Proof.
  intros Hthrow.
  assert (Hes : emitted (handleGetStarted accomplish props) h = [LogEvent completedPayload]).
  { rewrite handleGetStarted_emitted, Hthrow. reflexivity. }
  split; [ | split; [ exact Hes | ] ].
  - unfold handleGetStarted. rewrite completion_bind.
    unfold logEvent. rewrite completion_call, Hthrow. reflexivity.
  - rewrite Hes. intros Hin. apply list_elem_of_singleton in Hin. discriminate Hin.
Qed.

Lemma log_exception_leaves_handler_witness :
  completion (handleGetStarted Samples.throwingApi Samples.plainProps) []
    = Throw "logEvent is not available"
  /\ emitted (handleGetStarted Samples.throwingApi Samples.plainProps) []
    = [LogEvent completedPayload]
  /\ OnComplete ∉ emitted (handleGetStarted Samples.throwingApi Samples.plainProps) [].
Proof.
  apply (log_exception_leaves_handler Samples.throwingApi Samples.plainProps []
           "logEvent is not available").
  reflexivity.
Defined.

(** X4.  Whatever the logging API and the callback do, [n] clicks of "Get
    Started" make no call other than the completed log and the completion
    callback, and call the callback at most [n] times: never more than once
    per click, and never a navigation or a second started log. *)
Theorem clicks_make_only_log_and_callback_calls (accomplish : Accomplish)
    (props : OnboardingWizardProps) (n : nat) (h : History) :
  Forall (fun ev => ev = LogEvent completedPayload \/ ev = OnComplete)
    (emitted (React.clicks n (handleGetStarted accomplish props)) h)
  /\ calls OnComplete (emitted (React.clicks n (handleGetStarted accomplish props)) h) <= n.
Proof.
  revert h. induction n as [ | n IH ]; intros h.
  - split; [ constructor | reflexivity ].
  - rewrite emitted_clicks_S, calls_app.
    destruct (IH (h ++ emitted (handleGetStarted accomplish props) h)) as [Hall Hle].
    destruct (handleGetStarted_block accomplish props h) as [Hblock | Hblock];
      rewrite Hblock in *; split.
    + constructor; [ left; reflexivity | exact Hall ].
    + change (calls OnComplete [LogEvent completedPayload]) with 0. lia.
    + constructor; [ left; reflexivity | ].
      constructor; [ right; reflexivity | exact Hall ].
    + change (calls OnComplete [LogEvent completedPayload; OnComplete]) with 1. lia.
Qed.

(** X5.  With a logging API whose [logEvent] throws on every call, [n]
    clicks still make [n] log calls (a failed click does not disable the
    button) and the completion callback is never called. *)
Theorem always_throwing_log_never_completes (accomplish : Accomplish)
    (props : OnboardingWizardProps) (n : nat) (h : History) :
  (forall h0, exists err, logEvent_answer accomplish h0 completedPayload = Throw err) ->
  emitted (React.clicks n (handleGetStarted accomplish props)) h
    = repeat (LogEvent completedPayload) n
  /\ calls OnComplete (emitted (React.clicks n (handleGetStarted accomplish props)) h) = 0.
Proof.
  intros Hthrow.
  assert (Hes : emitted (React.clicks n (handleGetStarted accomplish props)) h
                = repeat (LogEvent completedPayload) n).
  { rewrite <- concat_repeat_singleton.
    apply emitted_clicks_uniform. intros h0.
    rewrite handleGetStarted_emitted.
    destruct (Hthrow h0) as [err ->]. reflexivity. }
  split; [ exact Hes | ].
  rewrite Hes. unfold calls. apply count_occ_not_In.
  intros Hin. apply repeat_spec in Hin. discriminate Hin.
Qed.

Lemma always_throwing_log_never_completes_witness :
  emitted (React.clicks 3 (handleGetStarted Samples.throwingApi Samples.plainProps)) []
    = repeat (LogEvent completedPayload) 3
  /\ calls OnComplete
       (emitted (React.clicks 3 (handleGetStarted Samples.throwingApi Samples.plainProps)) [])
     = 0.
Proof.
  apply (always_throwing_log_never_completes Samples.throwingApi Samples.plainProps 3 []).
  intros h0. exists "logEvent is not available". reflexivity.
Defined.

(** ** Feature cards *)

(** X6.  The entry of [toneStyles] for a tone [t] is the pair of classes
    "bg-t-500/10 text-t-600", and the own keys of the object literal are
    exactly the four tones. *)
Theorem toneStyles_entries :
  (forall tone,
     toneStyles !! toneKey tone
     = Some ("bg-" ++ toneKey tone ++ "-500/10 text-" ++ toneKey tone ++ "-600")%string)
  /\ (forall key : string, key ∈ dom toneStyles <-> exists tone, key = toneKey tone).
Proof.
  split.
  - intros tone. destruct tone; vm_compute; reflexivity.
  - intros key. rewrite elem_of_dom. unfold is_Some, toneStyles. split.
    + intros [style Hstyle]. revert Hstyle.
      rewrite !lookup_insert_Some, lookup_singleton_Some.
      intros [[<- _] | [_ [[<- _] | [_ [[<- _] | [_ [<- _]]]]]]].
      * exists blue. reflexivity.
      * exists teal. reflexivity.
      * exists purple. reflexivity.
      * exists green. reflexivity.
    + intros [tone ->]. destruct tone; eexists; vm_compute; reflexivity.
Qed.

(** X7.  Two feature cards get the same classes on their icon box exactly
    when they have the same tone: no two tones share a style. *)
Theorem icon_box_classes_identify_tone (props1 props2 : FeatureCardProps) :
  iconBoxClass (FeatureCard props1) = iconBoxClass (FeatureCard props2)
  <-> tone props1 = tone props2.
Proof.
  split.
  - destruct props1 as [i1 t1 d1 []], props2 as [i2 t2 d2 []];
      vm_compute; intros Heq; first [ reflexivity | discriminate Heq ].
  - unfold FeatureCard; simpl. intros ->. reflexivity.
Qed.

(** X8.  Every render of the overlay that finishes shows the same four
    feature cards, in the same order, whatever the props, the API and the
    earlier calls are: each has a non-empty heading and paragraph and a
    defined tone style, and the four styles are pairwise different. *)
Theorem overlay_shows_four_feature_cards (fiber : option React.Deps)
    (accomplish : Accomplish) (props : OnboardingWizardProps) (h : History)
    (deps : React.Deps) (view : OnboardingView) :
  completion (OnboardingWizard fiber accomplish props) h = Normal (deps, view) ->
  heading <$> cards view
    = ["Code Generation"; "Browser Automation"; "Task Management"; "Secure & Local"]
  /\ Forall (fun card => heading card <> "" /\ paragraph card <> ""
                         /\ ClassUndefined ∉ iconBoxClass card) (cards view)
  /\ NoDup (iconBoxClass <$> cards view)
  /\ buttonLabel view = "Get Started".
Proof.
  unfold OnboardingWizard. rewrite completion_bind.
  destruct (completion _ h) as [ d | err ]; [ | discriminate ].
  unfold completion, ret. simpl. intros [= <- <-]. simpl.
  split; [ reflexivity | split; [ | split; [ | reflexivity ] ] ].
  - repeat constructor; try discriminate.
    all: vm_compute; intros Hin;
      repeat (apply elem_of_cons in Hin as [Hin | Hin]; [ discriminate Hin | ]);
      inversion Hin.
  - vm_compute. repeat constructor.
    all: intros Hin;
      repeat (apply elem_of_cons in Hin as [Hin | Hin]; [ discriminate Hin | ]);
      inversion Hin.
Qed.

Lemma overlay_shows_four_feature_cards_witness :
  exists view,
    completion (mount Samples.resolvingApi Samples.plainProps) [] = Normal ([1], view)
    /\ heading <$> cards view
       = ["Code Generation"; "Browser Automation"; "Task Management"; "Secure & Local"]
    /\ NoDup (iconBoxClass <$> cards view).
Proof.
  eexists. split; [ reflexivity | ].
  pose proof (overlay_shows_four_feature_cards None Samples.resolvingApi
                Samples.plainProps [] [1] _ eq_refl) as (Hheadings & _ & Hdistinct & _).
  split; [ exact Hheadings | exact Hdistinct ].
Defined.

(** ** Rows of the conversation list *)

(** The active state of a rendered row is the comparison made in the body of
    the component. *)
Lemma isActiveRow_eqb (router : Router) (task : Task) :
  isActiveRow (ConversationListItem router task)
  = String.eqb (pathname (location router)) (executionPath task).
Proof.
  unfold isActiveRow, ConversationListItem. simpl.
  destruct (String.eqb (pathname (location router)) (executionPath task));
    vm_compute; reflexivity.
Qed.

Lemma append_inj_r (prefix s1 s2 : string) :
  (prefix ++ s1)%string = (prefix ++ s2)%string -> s1 = s2.
Proof.
  induction prefix as [ | c prefix IH ]; simpl; intros Heq; [ exact Heq | ].
  injection Heq as Heq. apply IH, Heq.
Qed.

Lemma executionPath_inj (task1 task2 : Task) :
  executionPath task1 = executionPath task2 -> Conversation.id task1 = Conversation.id task2.
Proof. unfold executionPath. apply append_inj_r. Qed.

Lemma append_length (s1 s2 : string) :
  String.length (s1 ++ s2)%string = String.length s1 + String.length s2.
Proof. induction s1 as [ | c s1 IH ]; simpl; [ | rewrite IH ]; reflexivity. Qed.

(** X9.  Among the rows of tasks with pairwise different ids, rendered at
    one location, at most one is in the active state. *)
Theorem at_most_one_active_row (router : Router) (tasks : list Task) :
  NoDup (Conversation.id <$> tasks) ->
  activeRows router tasks <= 1.
Proof.
  unfold activeRows, rows.
  induction tasks as [ | task tasks IH ]; intros Hnodup; [ simpl; lia | ].
  rewrite fmap_cons in Hnodup. apply NoDup_cons in Hnodup as [Hfresh Hnodup].
  rewrite fmap_cons. simpl List.filter.
  destruct (isActiveRow (ConversationListItem router task)) eqn:Hactive;
    [ | apply IH, Hnodup ].
  assert (Hnone : List.filter isActiveRow (ConversationListItem router <$> tasks) = []).
  { clear IH Hnodup. induction tasks as [ | other tasks IHt ]; [ reflexivity | ].
    rewrite fmap_cons in Hfresh. apply not_elem_of_cons in Hfresh as [Hne Hfresh].
    rewrite fmap_cons. simpl List.filter.
    destruct (isActiveRow (ConversationListItem router other)) eqn:Hother;
      [ | apply IHt, Hfresh ].
    exfalso. apply Hne.
    rewrite isActiveRow_eqb in Hactive, Hother.
    apply String.eqb_eq in Hactive, Hother.
    apply executionPath_inj. congruence. }
  rewrite Hnone. simpl. lia.
Qed.

Lemma at_most_one_active_row_witness :
  activeRows (routerAt "/execution/b2") sampleTasks <= 1.
Proof.
  apply (at_most_one_active_row (routerAt "/execution/b2") sampleTasks).
  vm_compute. repeat constructor.
  all: intros Hin;
    repeat (apply elem_of_cons in Hin as [Hin | Hin]; [ discriminate Hin | ]);
    inversion Hin.
Defined.

(** X10.  The comparison is an exact match of the whole pathname: at a
    location below the path of the task (the path followed by anything
    non-empty, such as a trailing slash) the row is not active. *)
Theorem longer_pathname_is_not_active (answer : History -> string -> Completion unit)
    (task : Task) (rest : string) :
  rest <> "" ->
  isActiveRow
    (ConversationListItem
       (routerWith answer ("/execution/" ++ Conversation.id task ++ rest)%string) task) = false.
Proof.
  intros Hrest. rewrite isActiveRow_eqb. apply String.eqb_neq.
  unfold routerWith, executionPath. simpl pathname.
  intros Heq. apply append_inj_r in Heq.
  apply (f_equal String.length) in Heq. rewrite append_length in Heq.
  destruct rest as [ | c rest ]; [ contradiction | simpl in Heq; lia ].
Qed.

Lemma longer_pathname_is_not_active_witness :
  isActiveRow
    (ConversationListItem
       (routerWith navigate_ok ("/execution/" ++ Conversation.id (sampleTask "running") ++ "/")%string)
       (sampleTask "running")) = false.
Proof.
  apply (longer_pathname_is_not_active navigate_ok (sampleTask "running") "/").
  discriminate.
Defined.

(** X11.  The path a click on a row asks the router for is the path at
    which that row is active: once the location is that path, the row of a
    task is active exactly when the task has the id of the clicked one. *)
Theorem clicked_path_activates_that_task_only (router : Router) (task : Task)
    (h : History) :
  exists to,
    emitted (React.click (onClick (ConversationListItem router task))) h = [Navigate to]
    /\ forall answer other,
         isActiveRow (ConversationListItem (routerWith answer to) other) = true
         <-> Conversation.id other = Conversation.id task.
Proof.
  exists (executionPath task). split; [ reflexivity | ].
  intros answer other. rewrite isActiveRow_eqb, String.eqb_eq.
  unfold routerWith. simpl pathname. split.
  - intros Heq. symmetry. apply executionPath_inj, Heq.
  - intros Heq. unfold executionPath. rewrite Heq. reflexivity.
Qed.

(** X12.  Every row shows the prompt of its task as its last child and in
    front of it at most one status icon, never a spinner and a check
    together; it shows an icon exactly when the status is "running" or
    "completed". *)
Theorem row_shows_prompt_and_at_most_one_icon (router : Router) (task : Task) :
  let row := ConversationListItem router task in
  last (renderedChildren row) = Some (Span "block truncate flex-1" (prompt task))
  /\ length (renderedChildren row) = S (statusIcons row)
  /\ spinners row + checks row = statusIcons row
  /\ statusIcons row <= 1
  /\ (statusIcons row = 1 <-> status task = "running" \/ status task = "completed").
Proof.
  intros row. subst row.
  unfold spinners, checks, statusIcons, renderedChildren, ConversationListItem,
    getStatusIcon; simpl.
  destruct (String.eqb (status task) "running") eqn:Hrun;
    [ | destruct (String.eqb (status task) "completed") eqn:Hdone ];
    simpl;
    (split; [ reflexivity | split; [ reflexivity | split; [ reflexivity | split; [ lia | ] ] ] ]).
  - split; [ intros _ | reflexivity ]. left. apply String.eqb_eq, Hrun.
  - split; [ intros _ | reflexivity ]. right. apply String.eqb_eq, Hdone.
  - apply String.eqb_neq in Hrun, Hdone.
    split; [ discriminate | intros [Hs | Hs]; contradiction ].
Qed.
